(** * PyMoe: the MyAnimeList client and the AniList manga search

    A shallow embedding of [Pymoe/Interface/anime/mal/__init__.py] (class
    [Mal]: [search], [get], [ranking], [seasonal]) and of
    [Pymoe/manga/search/anilist/__init__.py] (function [manga]), with the
    properties of the pagination cursor, of the season derivation and of
    the response triage proved on it.

    Python values are an inductive type, dictionaries keep their insertion
    order, exceptions are an error monad, the network and the JSON decoder
    are parameters of the code. *)

From Stdlib Require Import ZArith QArith String Ascii List Bool Lia
  DecimalString.
Import ListNotations.
Open Scope string_scope.
Open Scope Z_scope.

#[local] Set Warnings "-register-all".

(** ** Python values *)

Module Py.

(** The values that flow through the two modules: what a JSON decoder
    produces, plus dictionaries keyed by any hashable value (the ranking
    table is keyed by what the payload gives as rank).  A float stands by
    its value, a rational: the code does no arithmetic on floats, it
    tests them and uses them as keys. *)
Inductive pyval : Type :=
| PNone
| PBool (b : bool)
| PInt (z : Z)
| PFloat (q : Q)
| PStr (s : string)
| PList (l : list pyval)
| PDict (d : list (pyval * pyval)).

(** The exceptions the code can raise or let through. *)
Inductive exn : Type :=
| KeyError (k : pyval)
| TypeError
| JSONDecodeError
| RequestException
| serializationFailed (body : string) (status : Z)
| serverError (body : string) (status : Z).

Inductive result (A : Type) : Type :=
| Ok (a : A)
| Raise (e : exn).
Arguments Ok {A} a.
Arguments Raise {A} e.

Definition bind {A B : Type} (m : result A) (k : A -> result B) : result B :=
  match m with
  | Ok a => k a
  | Raise e => Raise e
  end.

Notation "x <- m ;; k" := (bind m (fun x => k))
  (at level 61, m at next level, right associativity).

(** [bool(v)]: the truth value of [v] in a condition. *)
Definition truthy (v : pyval) : bool :=
  match v with
  | PNone => false
  | PBool b => b
  | PInt z => negb (z =? 0)
  | PFloat q => negb (Qeq_bool q 0)
  | PStr s => negb (String.eqb s "")
  | PList l => match l with [] => false | _ => true end
  | PDict d => match d with [] => false | _ => true end
  end.

(** [a or b] on an optional string: [b] when [a] is [None] or empty. *)
Definition str_or (a : option string) (b : string) : string :=
  match a with
  | Some s => if String.eqb s "" then b else s
  | None => b
  end.

Definition hashable (k : pyval) : bool :=
  match k with
  | PList _ | PDict _ => false
  | _ => true
  end.

(** The number that a key stands for: [True == 1 == 1.0] and
    [False == 0 == 0.0] are one key each. *)
Definition number_of (k : pyval) : option Q :=
  match k with
  | PBool b => Some (inject_Z (if b then 1 else 0))
  | PInt z => Some (inject_Z z)
  | PFloat q => Some q
  | _ => None
  end.

(** Equality of dictionary keys. *)
Definition key_eqb (a b : pyval) : bool :=
  match a, b with
  | PNone, PNone => true
  | PStr x, PStr y => String.eqb x y
  | _, _ =>
      match number_of a, number_of b with
      | Some x, Some y => Qeq_bool x y
      | _, _ => false
      end
  end.

Definition dict := list (pyval * pyval).

Fixpoint dict_get (d : dict) (k : pyval) : option pyval :=
  match d with
  | [] => None
  | (k', v) :: d' => if key_eqb k' k then Some v else dict_get d' k
  end.

(** [d[k] = v]: an existing key keeps its place (and its first spelling),
    a new key goes last. *)
Fixpoint dict_set (d : dict) (k v : pyval) : dict :=
  match d with
  | [] => [(k, v)]
  | (k', v') :: d' =>
      if key_eqb k' k then (k', v) :: d' else (k', v') :: dict_set d' k v
  end.

Definition dict_has (d : dict) (k : pyval) : bool :=
  match dict_get d k with Some _ => true | None => false end.

(** [d[k] = v] with the hash of [k] taken first. *)
Definition setitem (d : dict) (k v : pyval) : result dict :=
  if hashable k then Ok (dict_set d k v) else Raise TypeError.

(** [v[k]] for a string [k]. *)
Definition getitem (v : pyval) (k : string) : result pyval :=
  match v with
  | PDict d =>
      match dict_get d (PStr k) with
      | Some x => Ok x
      | None => Raise (KeyError (PStr k))
      end
  | _ => Raise TypeError
  end.

Fixpoint is_substring (s t : string) : bool :=
  if String.prefix s t then true
  else match t with
       | EmptyString => false
       | String _ t' => is_substring s t'
       end.

Definition eq_str (s : string) (v : pyval) : bool :=
  match v with
  | PStr t => String.eqb s t
  | _ => false
  end.

(** [s in v] for a string [s]: a key of a dictionary, an element of a list,
    a substring of a string; the other values are not containers. *)
Definition contains (s : string) (v : pyval) : result bool :=
  match v with
  | PDict d => Ok (dict_has d (PStr s))
  | PList l => Ok (existsb (eq_str s) l)
  | PStr t => Ok (is_substring s t)
  | _ => Raise TypeError
  end.

Fixpoint chars (s : string) : list pyval :=
  match s with
  | EmptyString => []
  | String c s' => PStr (String c EmptyString) :: chars s'
  end.

(** [for item in v]: the elements of a list, the keys of a dictionary, the
    characters of a string. *)
Definition iter (v : pyval) : result (list pyval) :=
  match v with
  | PList l => Ok l
  | PDict d => Ok (map fst d)
  | PStr s => Ok (chars s)
  | _ => Raise TypeError
  end.

(** [str(z)], as "{}".format prints an integer. *)
Definition str_of_int (z : Z) : string :=
  NilEmpty.string_of_int (Z.to_int z).

End Py.

(** ** HTTP exchange *)

Module Http.
Import Py.

Record request : Type := mkRequest {
  url : string;
  params : list (string * pyval);
  headers : list (string * string)
}.

Record response : Type := mkResponse {
  status_code : Z;
  text : string
}.

End Http.

(** ** The MyAnimeList client: class [Mal] *)

Module Mal.
Import Py Http.

Record settings_t : Type := mkSettings {
  header : list (string * string);
  apiurl : string;
  default_fields : string
}.

(** [Mal.__init__]. *)
Definition init (apikey : string) : settings_t :=
  {| header := [("Content-Type", "application/json");
                ("User-Agent", "Pymoe (github.com/ccubed/PyMoe)");
                ("Accept", "application/json");
                ("X-MAL-CLIENT-ID", apikey)];
     apiurl := "https://api.myanimelist.net/v2/";
     default_fields := "id,title,main_picture,alternative_titles,start_date,end_date,nsfw,genres,status,media_type,broadcast" |}.

Definition short_fields : string :=
  "id,title,main_picture,alternative_titles,start_date".

(** ['false' if not nsfw else 'true']. *)
Definition nsfw_flag (nsfw : pyval) : pyval :=
  PStr (if negb (truthy nsfw) then "false" else "true").

(** [target[outer][k] = v] on the dictionary [target]: the inner dictionary
    is shared with [target], so the store shows in [target]. *)
Definition setitem_in (target : dict) (outer : string) (k v : pyval)
  : result dict :=
  inner <- getitem (PDict target) outer ;;
  match inner with
  | PDict d =>
      d' <- setitem d k v ;;
      Ok (dict_set target (PStr outer) (PDict d'))
  | _ => Raise TypeError
  end.

(** The loop of [search] and [seasonal]:
    [for item in ...: rdict[item['node']['title']] = item['node']]. *)
Fixpoint title_loop (items : list pyval) (rdict : dict) : result dict :=
  match items with
  | [] => Ok rdict
  | item :: rest =>
      node <- getitem item "node" ;;
      node' <- getitem item "node" ;;
      title <- getitem node' "title" ;;
      rdict' <- setitem rdict title node ;;
      title_loop rest rdict'
  end.

(** The loop of [ranking]:
    [for item in ...: rdict['ranking'][item['ranking']['rank']] = item['node']]. *)
Fixpoint rank_loop (items : list pyval) (rdict : dict) : result dict :=
  match items with
  | [] => Ok rdict
  | item :: rest =>
      node <- getitem item "node" ;;
      ranking <- getitem item "ranking" ;;
      rank <- getitem ranking "rank" ;;
      rdict' <- setitem_in rdict "ranking" rank node ;;
      rank_loop rest rdict'
  end.

(** The three statements that end [search], [ranking] and [seasonal]:
[[
  rdict['paging'] = {}
  rdict['paging']['previous'] = (offset - limit) if offset > 0 else None
  rdict['paging']['next'] = (offset + limit) if 'next' in jsd['paging'] else None
]] *)
Definition set_paging (rdict : dict) (jsd : pyval) (limit offset : Z)
  : result dict :=
  let rdict := dict_set rdict (PStr "paging") (PDict []) in
  rdict <- setitem_in rdict "paging" (PStr "previous")
             (if 0 <? offset then PInt (offset - limit) else PNone) ;;
  paging <- getitem jsd "paging" ;;
  has_next <- contains "next" paging ;;
  setitem_in rdict "paging" (PStr "next")
    (if has_next then PInt (offset + limit) else PNone).

(** [myseason] of [seasonal]; [month k] is what the k-th evaluation of
    [date.today().month] in the call gives. *)
Definition my_season (month : nat -> Z) (season : option string) : string :=
  let derived :=
    if month 0%nat <=? 3 then "winter"
    else if month 1%nat <=? 6 then "spring"
    else if month 2%nat <=? 9 then "summer"
    else "fall" in
  match season with
  | Some s => if negb (truthy (PStr s)) then derived else s
  | None => derived
  end.

Section Client.

(** The network ([requests.get]), the JSON decoder behind [r.json()], the
    clock behind [date.today().month], and the client's key. *)
Variable http_get : request -> result response.
Variable loads : string -> option pyval.
Variable month : nat -> Z.
Variable apikey : string.

Definition settings : settings_t := init apikey.

(** [r.json()]. *)
Definition json (r : response) : result pyval :=
  match loads (text r) with
  | Some v => Ok v
  | None => Raise JSONDecodeError
  end.

Definition search_request (name : string) (limit offset : Z)
  (fields : option string) (nsfw : pyval) : request :=
  {| url := apiurl settings ++ "anime";
     params := [("q", PStr name);
                ("fields", PStr (str_or fields short_fields));
                ("limit", PInt limit);
                ("offset", PInt offset);
                ("nsfw", nsfw_flag nsfw)];
     headers := header settings |}.

Definition search (name : string) (limit offset : Z)
  (fields : option string) (nsfw : pyval) : result pyval :=
  r <- http_get (search_request name limit offset fields nsfw) ;;
  if negb (status_code r =? 200) then Ok PNone
  else
    jsd <- json r ;;
    data <- getitem jsd "data" ;;
    items <- iter data ;;
    rdict <- title_loop items [] ;;
    rdict <- set_paging rdict jsd limit offset ;;
    Ok (PDict rdict).

Definition get_request (id : string) (fields : option string) : request :=
  {| url := apiurl settings ++ "anime/" ++ id;
     params := [("fields", PStr (str_or fields (default_fields settings)));
                ("nsfw", PStr "true")];
     headers := header settings |}.

Definition get (id : string) (fields : option string) : result pyval :=
  r <- http_get (get_request id fields) ;;
  if negb (status_code r =? 200) then Ok PNone
  else json r.

Definition ranking_request (rank_type : string) (limit offset : Z)
  (fields : option string) (nsfw : pyval) : request :=
  {| url := apiurl settings ++ "anime/ranking";
     params := [("ranking_type", PStr rank_type);
                ("limit", PInt limit);
                ("offset", PInt offset);
                ("fields", PStr (str_or fields short_fields));
                ("nsfw", nsfw_flag nsfw)];
     headers := header settings |}.

Definition ranking (rank_type : string) (limit offset : Z)
  (fields : option string) (nsfw : pyval) : result pyval :=
  r <- http_get (ranking_request rank_type limit offset fields nsfw) ;;
  if negb (status_code r =? 200) then Ok PNone
  else
    jsd <- json r ;;
    let rdict := dict_set [] (PStr "ranking") (PDict []) in
    data <- getitem jsd "data" ;;
    items <- iter data ;;
    rdict <- rank_loop items rdict ;;
    rdict <- set_paging rdict jsd limit offset ;;
    Ok (PDict rdict).

Definition seasonal_request (year : Z) (season : option string)
  (sort : string) (limit offset : Z) (fields : option string)
  (nsfw : pyval) : request :=
  let myseason := my_season month season in
  {| url := apiurl settings ++ "anime/season/" ++ str_of_int year
              ++ "/" ++ myseason;
     params := [("sort", PStr sort);
                ("limit", PInt limit);
                ("offset", PInt offset);
                ("fields", PStr (str_or fields short_fields))];
     headers := header settings |}.

Definition seasonal (year : Z) (season : option string) (sort : string)
  (limit offset : Z) (fields : option string) (nsfw : pyval)
  : result pyval :=
  r <- http_get (seasonal_request year season sort limit offset fields nsfw) ;;
  if negb (status_code r =? 200) then Ok PNone
  else
    jsd <- json r ;;
    data <- getitem jsd "data" ;;
    items <- iter data ;;
    rdict <- title_loop items [] ;;
    rdict <- set_paging rdict jsd limit offset ;;
    Ok (PDict rdict).

(** The three paginated operations under one type, to state what they
    share. *)
Inductive paged_call : Type :=
| Search (name : string) (limit offset : Z) (fields : option string)
    (nsfw : pyval)
| Ranking (rank_type : string) (limit offset : Z) (fields : option string)
    (nsfw : pyval)
| Seasonal (year : Z) (season : option string) (sort : string)
    (limit offset : Z) (fields : option string) (nsfw : pyval).

Definition run (c : paged_call) : result pyval :=
  match c with
  | Search name limit offset fields nsfw =>
      search name limit offset fields nsfw
  | Ranking rank_type limit offset fields nsfw =>
      ranking rank_type limit offset fields nsfw
  | Seasonal year season sort limit offset fields nsfw =>
      seasonal year season sort limit offset fields nsfw
  end.

Definition request_of (c : paged_call) : request :=
  match c with
  | Search name limit offset fields nsfw =>
      search_request name limit offset fields nsfw
  | Ranking rank_type limit offset fields nsfw =>
      ranking_request rank_type limit offset fields nsfw
  | Seasonal year season sort limit offset fields nsfw =>
      seasonal_request year season sort limit offset fields nsfw
  end.

Definition limit_of (c : paged_call) : Z :=
  match c with
  | Search _ limit _ _ _ | Ranking _ limit _ _ _
  | Seasonal _ _ _ limit _ _ _ => limit
  end.

Definition offset_of (c : paged_call) : Z :=
  match c with
  | Search _ _ offset _ _ | Ranking _ _ offset _ _
  | Seasonal _ _ _ _ offset _ _ => offset
  end.

End Client.

End Mal.

(** ** The AniList manga search: function [manga] *)

Module Anilist.
Import Py Http.

Definition header : list (string * string) :=
  [("Content-Type", "application/json");
   ("User-Agent", "Pymoe (github.com/ccubed/PyMoe)");
   ("Accept", "application/json")].

Definition apiurl : string := "https://graphql.anilist.co".

Definition query_string : string :=
"        query( $query: String, $page: Int, $perPage: Int ){
            Page ( page: $page, perPage: $perPage ) {
                pageInfo {
                    currentPage
                    hasNextPage
                }
                media ( search: $query, type: MANGA ){
                    id
                    idMal
                    title {
                        romaji
                        english
                    }
                    coverImage {
                        extralarge
                        large
                        medium
                        color
                    }
                    status
                    description
                    startDate {
                        year
                        month
                        day
                    }
                    endDate {
                        year
                        month
                        day
                    }
                    averageScore
                    popularity
                    chapters
                    volumes
                    genres
                    hashtag
                    isAdult
                    averageScore
                    synonyms
                    siteUrl
                }
            }
        }    
    ".

(** Modelled from the spec: the class [anilistWrapper] of [pymoe.helpers],
    of which the source has the constructor call only.  The Continuation
    Wrapper holds the media of the page it was built from, the query
    payload last sent, the headers and the endpoint URL. *)
Record anilistWrapper : Type := mkWrapper {
  wrapped_media : pyval;
  wrapped_payload : pyval;
  wrapped_headers : list (string * string);
  wrapped_url : string
}.

(** What [manga] returns: [jsd['data']['Page']['media']] as it is, or the
    wrapper. *)
Inductive manga_result : Type :=
| Media (media : pyval)
| Wrapped (w : anilistWrapper).

Definition json_params (term : pyval) (page perPage : Z) : pyval :=
  PDict [(PStr "query", PStr query_string);
         (PStr "variables",
          PDict [(PStr "query", term);
                 (PStr "page", PInt page);
                 (PStr "perPage", PInt perPage)])].

Section Search.

(** The network ([requests.post] with a JSON body) and [ujson.loads], which
    gives [None] where the decoder raises [ValueError]. *)
Variable http_post :
  string -> list (string * string) -> pyval -> result response.
Variable loads : string -> option pyval.

Definition manga (term : string) (page perPage : Z) : result manga_result :=
  let json_params := json_params (PStr term) page perPage in
  r <- http_post apiurl header json_params ;;
  match loads (text r) with
  | None => Raise (serializationFailed (text r) (status_code r))
  | Some jsd =>
      has_errors <- contains "errors" jsd ;;
      if has_errors then Raise (serverError (text r) (status_code r))
      else
        data <- getitem jsd "data" ;;
        page_ <- getitem data "Page" ;;
        pageInfo <- getitem page_ "pageInfo" ;;
        hasNextPage <- getitem pageInfo "hasNextPage" ;;
        if truthy hasNextPage then
          data <- getitem jsd "data" ;;
          page_ <- getitem data "Page" ;;
          media <- getitem page_ "media" ;;
          Ok (Wrapped (mkWrapper media json_params header apiurl))
        else
          data <- getitem jsd "data" ;;
          page_ <- getitem data "Page" ;;
          media <- getitem page_ "media" ;;
          Ok (Media media)
  end.

End Search.

End Anilist.

(** ** A reference JSON decoder

    The code is parametric in its decoder.  This one reads the JSON texts
    of the examples below: objects, arrays, strings with the simple
    escapes, integers, [true], [false] and [null].  A repeated key keeps
    its last value, as in Python. *)

Module Json.
Import Py.

Definition is_ws (c : ascii) : bool :=
  match c with
  | " "%char | "009"%char | "010"%char | "013"%char => true
  | _ => false
  end.

Fixpoint skip_ws (s : string) : string :=
  match s with
  | String c s' => if is_ws c then skip_ws s' else s
  | EmptyString => s
  end.

Definition digit_of (c : ascii) : option Z :=
  let n := Z.of_nat (nat_of_ascii c) in
  if (48 <=? n) && (n <=? 57) then Some (n - 48) else None.

Fixpoint digits (s : string) (acc : Z) : Z * string :=
  match s with
  | String c s' =>
      match digit_of c with
      | Some d => digits s' (10 * acc + d)
      | None => (acc, s)
      end
  | EmptyString => (acc, s)
  end.

Definition natural (s : string) : option (Z * string) :=
  match s with
  | String c s' =>
      match digit_of c with
      | Some d => Some (digits s' d)
      | None => None
      end
  | EmptyString => None
  end.

(** The text after an opening quote, up to the closing one. *)
Fixpoint quoted (s : string) : option (string * string) :=
  match s with
  | EmptyString => None
  | String "034"%char s' => Some ("", s')
  | String "\"%char (String e s') =>
      let unescaped :=
        match e with
        | "034"%char | "\"%char | "/"%char => Some e
        | "n"%char => Some "010"%char
        | "t"%char => Some "009"%char
        | "r"%char => Some "013"%char
        | _ => None
        end in
      match unescaped, quoted s' with
      | Some c, Some (body, rest) => Some (String c body, rest)
      | _, _ => None
      end
  | String c s' =>
      match quoted s' with
      | Some (body, rest) => Some (String c body, rest)
      | None => None
      end
  end.

Definition keyword (k : string) (v : pyval) (s : string)
  : option (pyval * string) :=
  if String.prefix k s
  then Some (v, substring (String.length k) (String.length s) s)
  else None.

Fixpoint value (fuel : nat) (s : string) : option (pyval * string) :=
  match fuel with
  | O => None
  | S fuel' =>
      match skip_ws s with
      | EmptyString => None
      | String "{"%char s' =>
          match skip_ws s' with
          | String "}"%char rest => Some (PDict [], rest)
          | _ => members fuel' s' []
          end
      | String "["%char s' =>
          match skip_ws s' with
          | String "]"%char rest => Some (PList [], rest)
          | _ => elements fuel' s' []
          end
      | String "034"%char s' =>
          match quoted s' with
          | Some (body, rest) => Some (PStr body, rest)
          | None => None
          end
      | String "-"%char s' =>
          match natural s' with
          | Some (n, rest) => Some (PInt (- n), rest)
          | None => None
          end
      | String "n"%char _ => keyword "null" PNone (skip_ws s)
      | String "t"%char _ => keyword "true" (PBool true) (skip_ws s)
      | String "f"%char _ => keyword "false" (PBool false) (skip_ws s)
      | String _ _ =>
          match natural (skip_ws s) with
          | Some (n, rest) => Some (PInt n, rest)
          | None => None
          end
      end
  end

with elements (fuel : nat) (s : string) (acc : list pyval)
  : option (pyval * string) :=
  match fuel with
  | O => None
  | S fuel' =>
      match value fuel' s with
      | Some (v, rest) =>
          match skip_ws rest with
          | String ","%char rest' => elements fuel' rest' (acc ++ [v])
          | String "]"%char rest' => Some (PList (acc ++ [v]), rest')
          | _ => None
          end
      | None => None
      end
  end

with members (fuel : nat) (s : string) (acc : dict)
  : option (pyval * string) :=
  match fuel with
  | O => None
  | S fuel' =>
      match skip_ws s with
      | String "034"%char s' =>
          match quoted s' with
          | Some (key, rest) =>
              match skip_ws rest with
              | String ":"%char rest' =>
                  match value fuel' rest' with
                  | Some (v, rest'') =>
                      let acc' := dict_set acc (PStr key) v in
                      match skip_ws rest'' with
                      | String ","%char r => members fuel' r acc'
                      | String "}"%char r => Some (PDict acc', r)
                      | _ => None
                      end
                  | None => None
                  end
              | _ => None
              end
          | None => None
          end
      | _ => None
      end
  end.

(** The whole text must be one value. *)
Definition loads (s : string) : option pyval :=
  match value (2 * String.length s + 2) s with
  | Some (v, rest) =>
      match skip_ws rest with
      | EmptyString => Some v
      | _ => None
      end
  | None => None
  end.

(** The JSON texts of the examples are written with an apostrophe where
    the text has a double quote. *)
Fixpoint js (s : string) : string :=
  match s with
  | EmptyString => EmptyString
  | String c s' => String (if Ascii.eqb c "'"%char then "034"%char else c) (js s')
  end.

End Json.

(** ** Canned servers and clocks for the examples *)

Module Demo.
Import Py Http Json.

(** A server that answers every request with the same status and body. *)
Definition server (status : Z) (body : string)
  : request -> result response :=
  fun _ => Ok {| status_code := status; text := body |}.

Definition graphql (status : Z) (body : string)
  : string -> list (string * string) -> pyval -> result response :=
  fun _ _ _ => Ok {| status_code := status; text := body |}.

(** A clock that stays in month [m] during the call. *)
Definition steady (m : Z) : nat -> Z := fun _ => m.

Definition two_titles : string :=
  js "{'data':[{'node':{'id':269,'title':'Bleach'}},{'node':{'id':20,'title':'Naruto'}}],'paging':{'next':'https://api.myanimelist.net/v2/anime?offset=30'}}".

Definition last_page : string :=
  js "{'data':[{'node':{'id':269,'title':'Bleach'}}],'paging':{'previous':'https://api.myanimelist.net/v2/anime?offset=0'}}".

Definition two_ranks : string :=
  js "{'data':[{'node':{'id':5114,'title':'Fullmetal'},'ranking':{'rank':2}},{'node':{'id':9253,'title':'Steins'},'ranking':{'rank':1}}],'paging':{'next':'https://api.myanimelist.net/v2/anime/ranking?offset=2'}}".

Definition titled_paging : string :=
  js "{'data':[{'node':{'id':7,'title':'paging'}}],'paging':{}}".

Definition not_found : string :=
  js "{'message':'','error':'not_found'}".

Definition manga_last : string :=
  js "{'data':{'Page':{'pageInfo':{'currentPage':1,'hasNextPage':false},'media':[{'id':30002,'idMal':2}]}}}".

Definition manga_more : string :=
  js "{'data':{'Page':{'pageInfo':{'currentPage':1,'hasNextPage':true},'media':[{'id':30002,'idMal':2}]}}}".

Definition manga_errors : string :=
  js "{'errors':[{'message':'Too Many Requests.','status':429}],'data':null}".

Definition gateway_page : string := "<html>502 Bad Gateway</html>".

End Demo.

(** ** Shapes of payloads and of results, to state what the calls give *)

Module Shape.
Import Py Mal.

(** [search] and [seasonal] key their records by title, [ranking] does
    not. *)
Definition keyed_by_title (c : paged_call) : bool :=
  match c with
  | Ranking _ _ _ _ _ => false
  | _ => true
  end.

(** The paging cursor for [limit], [offset] and the outcome of the test
    ['next' in jsd['paging']]. *)
Definition cursor (limit offset : Z) (has_next : bool) : pyval :=
  PDict [(PStr "previous",
          if 0 <? offset then PInt (offset - limit) else PNone);
         (PStr "next",
          if has_next then PInt (offset + limit) else PNone)].

(** [item] is an entry of the payload with node [snd rec], whose title is
    the string [fst rec]. *)
Definition titled (item : pyval) (rec : string * pyval) : Prop :=
  getitem item "node" = Ok (snd rec) /\
  getitem (snd rec) "title" = Ok (PStr (fst rec)).

(** [item] is an entry of the payload with node [snd rec] and the integer
    rank [fst rec]. *)
Definition ranked (item : pyval) (rec : Z * pyval) : Prop :=
  getitem item "node" = Ok (snd rec) /\
  exists ranking,
    getitem item "ranking" = Ok ranking /\
    getitem ranking "rank" = Ok (PInt (fst rec)).

Definition title_entry (rec : string * pyval) : pyval * pyval :=
  (PStr (fst rec), snd rec).

Definition rank_entry (rec : Z * pyval) : pyval * pyval :=
  (PInt (fst rec), snd rec).

(** The same call from another offset. *)
Definition with_offset (c : paged_call) (n : Z) : paged_call :=
  match c with
  | Search name limit _ fields nsfw => Search name limit n fields nsfw
  | Ranking rank_type limit _ fields nsfw =>
      Ranking rank_type limit n fields nsfw
  | Seasonal year season sort limit _ fields nsfw =>
      Seasonal year season sort limit n fields nsfw
  end.

(** The quarter of a month of 1..12, by its number [(m - 1) / 3]. *)
Definition quarter (m : Z) : string :=
  match (m - 1) / 3 with
  | 0 => "winter"
  | 1 => "spring"
  | 2 => "summer"
  | _ => "fall"
  end.

End Shape.

(** ** More canned bodies and a clock that moves *)

Module Samples.
Import Py Json.

Definition one_record : string :=
  js "{'id':1,'title':'Cowboy Bebop'}".

Definition no_envelope : string :=
  js "{'data':[]}".

Definition same_title_twice : string :=
  js "{'data':[{'node':{'id':1,'title':'Bleach'}},{'node':{'id':2,'title':'Bleach'}}],'paging':{}}".

Definition bare_number : string := "429".

Definition bare_text : string :=
  js "'Internal errors occurred'".

Definition no_data : string :=
  js "{'message':'ok'}".

Definition null_data : string :=
  js "{'data':null}".

Definition flag_as_number : string :=
  js "{'data':{'Page':{'pageInfo':{'hasNextPage':1},'media':{'id':30002}}}}".

(** June at the first reading, July from the second on. *)
Definition june_to_july (k : nat) : Z :=
  match k with
  | O => 6
  | S _ => 7
  end.

(** December at the first two readings, January at the third. *)
Definition new_year (k : nat) : Z :=
  match k with
  | O | S O => 12
  | S (S _) => 1
  end.

End Samples.

(** ** Facts on dictionaries and on the error monad *)

Module PyFacts.
Import Py.

Lemma bind_ok {A B : Type} (m : result A) (k : A -> result B) (b : B) :
  bind m k = Ok b -> exists a, m = Ok a /\ k a = Ok b.
Proof.
  destruct m as [a | e]; simpl; intros H.
  - exists a. split; [reflexivity | exact H].
  - discriminate H.
Qed.

Lemma key_eqb_str (s : string) : key_eqb (PStr s) (PStr s) = true.
Proof. simpl. apply String.eqb_refl. Qed.

Lemma dict_get_set_same (d : dict) (k v : pyval) :
  key_eqb k k = true -> dict_get (dict_set d k v) k = Some v.
Proof.
  intros Hk. induction d as [| [k' v'] d' IH]; simpl.
  - rewrite Hk. reflexivity.
  - destruct (key_eqb k' k) eqn:E; simpl; rewrite E.
    + reflexivity.
    + exact IH.
Qed.

Lemma getitem_set_same (d : dict) (s : string) (v : pyval) :
  getitem (PDict (dict_set d (PStr s) v)) s = Ok v.
Proof.
  unfold getitem. rewrite dict_get_set_same by apply key_eqb_str.
  reflexivity.
Qed.

End PyFacts.

(** ** The pagination cursor, the season and the request of [Mal] *)

Module MalFacts.
Import Py Http Mal PyFacts.

(** The cursor that [set_paging] stores, as a function of what the test
    ['next' in jsd['paging']] gave. *)
Lemma set_paging_ok (rdict : dict) (jsd : pyval) (limit offset : Z)
  (out : dict) :
  set_paging rdict jsd limit offset = Ok out ->
  exists envelope has_next,
    getitem jsd "paging" = Ok envelope /\
    contains "next" envelope = Ok has_next /\
    getitem (PDict out) "paging" =
      Ok (PDict [(PStr "previous",
                  if 0 <? offset then PInt (offset - limit) else PNone);
                 (PStr "next",
                  if has_next then PInt (offset + limit) else PNone)]).
Proof.
  unfold set_paging, setitem_in. intros H.
  rewrite getitem_set_same in H. simpl bind in H.
  destruct (getitem jsd "paging") as [envelope | e] eqn:He;
    [| discriminate H].
  simpl bind in H.
  destruct (contains "next" envelope) as [has_next | e] eqn:Hn;
    [| discriminate H].
  simpl bind in H.
  rewrite dict_get_set_same in H by apply key_eqb_str. simpl in H.
  injection H as <-.
  exists envelope, has_next.
  split; [reflexivity |].
  split; [exact Hn |].
  apply getitem_set_same.
Qed.

Ltac unbind H :=
  let a := fresh "a" in
  let Ha := fresh "Ha" in
  apply bind_ok in H; destruct H as (a & Ha & H).

Section Client.

Variable http_get : request -> result response.
Variable loads : string -> option pyval.
Variable month : nat -> Z.
Variable apikey : string.

(** A call that gives a dictionary went through the status check, the
    decoder and [set_paging]. *)
Lemma run_ok (c : paged_call) (rdict : pyval) :
  run http_get loads month apikey c = Ok rdict ->
  rdict <> PNone ->
  exists r jsd d0 out,
    http_get (request_of month apikey c) = Ok r /\
    status_code r = 200 /\
    loads (text r) = Some jsd /\
    set_paging d0 jsd (limit_of c) (offset_of c) = Ok out /\
    rdict = PDict out.
Proof.
  intros H Hnone.
  destruct c; simpl in *;
    unfold search, ranking, seasonal in H;
    unbind H;
    (destruct (status_code a =? 200) eqn:Hs; simpl in H;
     [| injection H as <-; contradiction]);
    apply Z.eqb_eq in Hs;
    unbind H;
    unfold json in Ha0;
    (destruct (loads (text a)) as [jsd |] eqn:Hl; [| discriminate Ha0]);
    injection Ha0 as <-;
    do 4 unbind H;
    injection H as <-;
    eauto 10.
Qed.

(** C1. A call to [search], [ranking] or [seasonal] that gives a result
    gives it with a paging cursor whose ['previous'] is [offset - limit]
    when [offset > 0] and [None] when [offset <= 0]; ['previous'] is
    [None] only when [offset <= 0]. *)
Theorem paging_previous (c : paged_call) (rdict : pyval) :
  run http_get loads month apikey c = Ok rdict ->
  rdict <> PNone ->
  exists cursor previous,
    getitem rdict "paging" = Ok cursor /\
    getitem cursor "previous" = Ok previous /\
    (0 < offset_of c -> previous = PInt (offset_of c - limit_of c)) /\
    (offset_of c <= 0 -> previous = PNone) /\
    (previous = PNone -> offset_of c <= 0).
Proof.
  intros H Hnone.
  destruct (run_ok c rdict H Hnone) as (r & jsd & d0 & out & _ & _ & _ & Hp & ->).
  destruct (set_paging_ok _ _ _ _ _ Hp) as (envelope & has_next & _ & _ & Hc).
  eexists. eexists. split; [exact Hc |].
  split; [reflexivity |].
  destruct (0 <? offset_of c) eqn:E.
  - apply Z.ltb_lt in E. repeat split; intros; [lia | discriminate].
  - apply Z.ltb_ge in E. repeat split; intros; [lia | exact E].
Qed.

(** C2. A call to [search], [ranking] or [seasonal] that gives a result
    gives it with a paging cursor whose ['next'] is [None] exactly when
    the paging envelope of the upstream response has no ['next'], and
    [offset + limit] exactly when it has one. *)
Theorem paging_next (c : paged_call) (rdict : pyval) :
  run http_get loads month apikey c = Ok rdict ->
  rdict <> PNone ->
  exists r jsd envelope has_next cursor next,
    http_get (request_of month apikey c) = Ok r /\
    loads (text r) = Some jsd /\
    getitem jsd "paging" = Ok envelope /\
    contains "next" envelope = Ok has_next /\
    getitem rdict "paging" = Ok cursor /\
    getitem cursor "next" = Ok next /\
    (next = PNone <-> has_next = false) /\
    (next = PInt (offset_of c + limit_of c) <-> has_next = true).
Proof.
  intros H Hnone.
  destruct (run_ok c rdict H Hnone)
    as (r & jsd & d0 & out & Hr & _ & Hl & Hp & ->).
  destruct (set_paging_ok _ _ _ _ _ Hp) as (envelope & has_next & He & Hn & Hc).
  exists r, jsd, envelope, has_next. eexists. eexists.
  split; [exact Hr |]. split; [exact Hl |]. split; [exact He |].
  split; [exact Hn |]. split; [exact Hc |]. split; [reflexivity |].
  destruct has_next; split; split; intros; try reflexivity; discriminate.
Qed.

(** Any status other than 200 makes [get] return [None]. *)
Lemma get_not_200 (id : string) (fields : option string) (r : response) :
  http_get (get_request apikey id fields) = Ok r ->
  status_code r <> 200 ->
  get http_get loads apikey id fields = Ok PNone.
Proof.
  intros Hr Hs. unfold get. rewrite Hr. simpl.
  apply Z.eqb_neq in Hs. rewrite Hs. reflexivity.
Qed.

(** C8, as the code has it.  With the season unset, and with an empty
    season as well, a call during which every reading of
    [date.today().month] gives the same month [m] puts into the URL the
    quarter of [m] (1-3 winter, 4-6 spring, 7-9 summer, 10-12 fall).  A
    non-empty season goes into the URL unchanged, whatever the clock
    does. *)
Theorem seasonal_season_in_url (year : Z) (season : option string)
  (sort : string) (limit offset : Z) (fields : option string)
  (nsfw : pyval) :
  let season_url (name : string) :=
    "https://api.myanimelist.net/v2/anime/season/" ++ str_of_int year
      ++ "/" ++ name in
  let sent :=
    url (seasonal_request month apikey year season sort limit offset
           fields nsfw) in
  (season = None \/ season = Some "" ->
   forall m, (forall k, month k = m) ->
     (1 <= m <= 3 -> sent = season_url "winter") /\
     (4 <= m <= 6 -> sent = season_url "spring") /\
     (7 <= m <= 9 -> sent = season_url "summer") /\
     (10 <= m <= 12 -> sent = season_url "fall")) /\
  (forall s, season = Some s -> s <> "" -> sent = season_url s).
Proof.
  intros season_url sent. subst sent season_url.
  unfold seasonal_request, my_season. cbn [url settings init apiurl].
  split.
  - intros Hs m Hm. rewrite !Hm.
    assert (Hq : (1 <= m <= 3 -> (m <=? 3) = true) /\
                 (4 <= m <= 6 -> (m <=? 3) = false /\ (m <=? 6) = true) /\
                 (7 <= m <= 9 -> (m <=? 3) = false /\ (m <=? 6) = false
                                 /\ (m <=? 9) = true) /\
                 (10 <= m <= 12 -> (m <=? 3) = false /\ (m <=? 6) = false
                                   /\ (m <=? 9) = false)).
    { rewrite !Z.leb_le, !Z.leb_gt. lia. }
    destruct Hq as (Q1 & Q2 & Q3 & Q4).
    destruct Hs as [-> | ->]; cbn [truthy String.eqb negb];
      (split; [intros H; rewrite (Q1 H); reflexivity |]);
      (split; [intros H; destruct (Q2 H) as (-> & ->); reflexivity |]);
      (split; [intros H; destruct (Q3 H) as (-> & -> & ->); reflexivity |]);
      intros H; destruct (Q4 H) as (-> & -> & ->); reflexivity.
  - intros s -> Hne. simpl truthy.
    destruct (String.eqb_spec s ""); [contradiction | reflexivity].
Qed.

(** C10. Two calls to [seasonal] that differ in [nsfw] only send the same
    request, which has no ['nsfw'] parameter, and give the same result. *)
Theorem seasonal_ignores_nsfw (year : Z) (season : option string)
  (sort : string) (limit offset : Z) (fields : option string)
  (nsfw nsfw' : pyval) :
  seasonal_request month apikey year season sort limit offset fields nsfw
  = seasonal_request month apikey year season sort limit offset fields nsfw'
  /\ ~ In "nsfw"
       (map fst
          (params (seasonal_request month apikey year season sort limit
                     offset fields nsfw)))
  /\ seasonal http_get loads month apikey year season sort limit offset
       fields nsfw
     = seasonal http_get loads month apikey year season sort limit offset
         fields nsfw'.
Proof.
  split; [reflexivity |].
  split; [| reflexivity].
  simpl. intros [H | [H | [H | [H | []]]]]; discriminate H.
Qed.

End Client.

Import Json Demo.

Lemma paging_previous_witness :
  let c := Search "bleach" 10 20 None PNone in
  let rdict :=
    PDict [(PStr "Bleach",
            PDict [(PStr "id", PInt 269); (PStr "title", PStr "Bleach")]);
           (PStr "Naruto",
            PDict [(PStr "id", PInt 20); (PStr "title", PStr "Naruto")]);
           (PStr "paging",
            PDict [(PStr "previous", PInt 10); (PStr "next", PInt 30)])] in
  run (server 200 two_titles) loads (steady 1) "key" c = Ok rdict /\
  rdict <> PNone /\
  exists cursor previous,
    getitem rdict "paging" = Ok cursor /\
    getitem cursor "previous" = Ok previous /\
    (0 < offset_of c -> previous = PInt (offset_of c - limit_of c)) /\
    (offset_of c <= 0 -> previous = PNone) /\
    (previous = PNone -> offset_of c <= 0).
Proof.
  intros c rdict.
  split; [vm_compute; reflexivity |].
  split; [discriminate |].
  apply (paging_previous (server 200 two_titles) loads (steady 1) "key" c);
    [vm_compute; reflexivity | discriminate].
Defined.

Lemma paging_next_witness :
  let c := Ranking "all" 2 0 None PNone in
  let rdict :=
    PDict [(PStr "ranking",
            PDict [(PInt 2,
                    PDict [(PStr "id", PInt 5114);
                           (PStr "title", PStr "Fullmetal")]);
                   (PInt 1,
                    PDict [(PStr "id", PInt 9253);
                           (PStr "title", PStr "Steins")])]);
           (PStr "paging",
            PDict [(PStr "previous", PNone); (PStr "next", PInt 2)])] in
  run (server 200 two_ranks) loads (steady 1) "key" c = Ok rdict /\
  rdict <> PNone /\
  exists r jsd envelope has_next cursor next,
    server 200 two_ranks (request_of (steady 1) "key" c) = Ok r /\
    loads (text r) = Some jsd /\
    getitem jsd "paging" = Ok envelope /\
    contains "next" envelope = Ok has_next /\
    getitem rdict "paging" = Ok cursor /\
    getitem cursor "next" = Ok next /\
    (next = PNone <-> has_next = false) /\
    (next = PInt (offset_of c + limit_of c) <-> has_next = true).
Proof.
  intros c rdict.
  split; [vm_compute; reflexivity |].
  split; [discriminate |].
  apply (paging_next (server 200 two_ranks) loads (steady 1) "key" c);
    [vm_compute; reflexivity | discriminate].
Defined.

(** C3 on the code: [search], and [seasonal] as well, with [limit = 10]
    from [offset = 5] give a cursor whose ['previous'] is the negative
    offset [-5]. *)
Theorem search_previous_negative :
  (exists rdict cursor,
     search (server 200 two_titles) loads "key" "bleach" 10 5 None PNone
     = Ok rdict /\
     getitem rdict "paging" = Ok cursor /\
     getitem cursor "previous" = Ok (PInt (-5))) /\
  (exists rdict cursor,
     seasonal (server 200 last_page) loads (steady 1) "key" 2024 None
       "anime_score" 10 5 None PNone
     = Ok rdict /\
     getitem rdict "paging" = Ok cursor /\
     getitem cursor "previous" = Ok (PInt (-5))).
Proof.
  split; eexists; eexists;
    (split; [vm_compute; reflexivity | split; reflexivity]).
Qed.

(** C4 on the code: [get] answers a 404, and a 502 as well, by returning
    [None]; no error is raised. *)
Theorem get_404_returns_none :
  get (server 404 not_found) loads "key" "1" None = Ok PNone /\
  get (server 502 gateway_page) loads "key" "1" None = Ok PNone.
Proof.
  split; eapply get_not_200; try reflexivity; simpl; lia.
Qed.

(** C8 as stated fails twice.  At [season = ""] the season is given, and
    the URL has the quarter of the month in its place.  With the season
    unset and the readings of the month 12, 12 and 1 (a call across the
    new year) the URL has "summer", the quarter of neither month. *)
Lemma seasonal_season_not_as_stated :
  let sent :=
    url (seasonal_request (steady 1) "key" 2024 (Some "") "anime_score"
           10 0 None PNone) in
  let sent' :=
    url (seasonal_request Samples.new_year "key" 2024 None "anime_score"
           10 0 None PNone) in
  (sent = "https://api.myanimelist.net/v2/anime/season/2024/winter" /\
   sent <> "https://api.myanimelist.net/v2/anime/season/2024/" ++ "") /\
  (Samples.new_year 0%nat = 12 /\ Samples.new_year 1%nat = 12 /\
   Samples.new_year 2%nat = 1 /\
   sent' = "https://api.myanimelist.net/v2/anime/season/2024/summer" /\
   sent' <> "https://api.myanimelist.net/v2/anime/season/2024/fall" /\
   sent' <> "https://api.myanimelist.net/v2/anime/season/2024/winter").
Proof.
  split.
  - split; [vm_compute; reflexivity | vm_compute; discriminate].
  - repeat split; try (vm_compute; reflexivity); vm_compute; discriminate.
Qed.

Lemma seasonal_season_in_url_witness :
  (forall k, steady 4 k = 4) /\
  4 <= 4 <= 6 /\
  url (seasonal_request (steady 4) "key" 2024 None "anime_score" 10 0
         None PNone)
  = "https://api.myanimelist.net/v2/anime/season/" ++ str_of_int 2024
      ++ "/" ++ "spring".
Proof.
  assert (H4 : 4 <= 4 <= 6) by lia.
  split; [reflexivity |].
  split; [exact H4 |].
  pose proof (seasonal_season_in_url (steady 4) "key" 2024 None
                "anime_score" 10 0 None PNone) as H.
  cbv zeta in H. destruct H as [H _].
  destruct (H (or_introl eq_refl) 4 (fun _ => eq_refl))
    as (_ & Hspring & _).
  apply Hspring. exact H4.
Defined.

(** C9 on the code: a record titled "paging" is not in the mapping that
    [search] and [seasonal] return; the key holds the cursor. *)
Theorem search_title_paging_lost :
  let node := PDict [(PStr "id", PInt 7); (PStr "title", PStr "paging")] in
  let cursor := PDict [(PStr "previous", PNone); (PStr "next", PNone)] in
  loads titled_paging
  = Some (PDict [(PStr "data", PList [PDict [(PStr "node", node)]]);
                 (PStr "paging", PDict [])]) /\
  search (server 200 titled_paging) loads "key" "paging" 10 0 None PNone
  = Ok (PDict [(PStr "paging", cursor)]) /\
  seasonal (server 200 titled_paging) loads (steady 1) "key" 2024 None
    "anime_score" 10 0 None PNone
  = Ok (PDict [(PStr "paging", cursor)]) /\
  cursor <> node.
Proof.
  split; [vm_compute; reflexivity |].
  split; [vm_compute; reflexivity |].
  split; [vm_compute; reflexivity | discriminate].
Qed.

End MalFacts.

(** ** The triage of the response in [manga] *)

Module AnilistFacts.
Import Py Http Anilist PyFacts.

Section Search.

Variable http_post :
  string -> list (string * string) -> pyval -> result response.
Variable loads : string -> option pyval.

(** C5. When the body of the response is not JSON, [manga] raises
    [serializationFailed] with the body and the status code, and returns
    nothing. *)
Theorem manga_malformed_body (term : string) (page perPage : Z)
  (r : response) :
  http_post apiurl header (json_params (PStr term) page perPage) = Ok r ->
  loads (text r) = None ->
  manga http_post loads term page perPage
  = Raise (serializationFailed (text r) (status_code r))
  /\ forall res, manga http_post loads term page perPage <> Ok res.
Proof.
  intros Hr Hl.
  assert (H : manga http_post loads term page perPage
              = Raise (serializationFailed (text r) (status_code r))).
  { unfold manga. rewrite Hr. simpl. rewrite Hl. reflexivity. }
  split; [exact H |].
  intros res. rewrite H. discriminate.
Qed.

(** Whatever the decoded body is, a positive test ['errors' in jsd] ends
    the call with [serverError]. *)
Lemma manga_errors_in (term : string) (page perPage : Z) (r : response)
  (jsd : pyval) :
  http_post apiurl header (json_params (PStr term) page perPage) = Ok r ->
  loads (text r) = Some jsd ->
  contains "errors" jsd = Ok true ->
  manga http_post loads term page perPage
  = Raise (serverError (text r) (status_code r)).
Proof.
  intros Hr Hl Hc. unfold manga. rewrite Hr. simpl. rewrite Hl, Hc.
  reflexivity.
Qed.

(** C6. When the body of the response is a JSON object with an ['errors']
    field, [manga] raises [serverError] with the body and the status code,
    and returns nothing. *)
Theorem manga_errors_field (term : string) (page perPage : Z)
  (r : response) (d : dict) (errors : pyval) :
  http_post apiurl header (json_params (PStr term) page perPage) = Ok r ->
  loads (text r) = Some (PDict d) ->
  dict_get d (PStr "errors") = Some errors ->
  manga http_post loads term page perPage
  = Raise (serverError (text r) (status_code r))
  /\ forall res, manga http_post loads term page perPage <> Ok res.
Proof.
  intros Hr Hl He.
  assert (H : manga http_post loads term page perPage
              = Raise (serverError (text r) (status_code r))).
  { apply manga_errors_in with (jsd := PDict d); try assumption.
    simpl. unfold dict_has. rewrite He. reflexivity. }
  split; [exact H |].
  intros res. rewrite H. discriminate.
Qed.

(** C7. On a response whose body decodes to an object without ['errors']
    and with [data.Page.pageInfo.hasNextPage] a boolean and
    [data.Page.media] a list, [manga] returns the list itself exactly when
    [hasNextPage] is false, and exactly when it is true an [anilistWrapper]
    built from the list, the query payload that was sent, the headers and
    the endpoint URL. *)
Theorem manga_page_result (term : string) (page perPage : Z)
  (r : response) (d : dict) (data page_ pageInfo : pyval)
  (hasNextPage : bool) (media : list pyval) :
  http_post apiurl header (json_params (PStr term) page perPage) = Ok r ->
  loads (text r) = Some (PDict d) ->
  dict_get d (PStr "errors") = None ->
  getitem (PDict d) "data" = Ok data ->
  getitem data "Page" = Ok page_ ->
  getitem page_ "pageInfo" = Ok pageInfo ->
  getitem pageInfo "hasNextPage" = Ok (PBool hasNextPage) ->
  getitem page_ "media" = Ok (PList media) ->
  let result := manga http_post loads term page perPage in
  let wrapper :=
    {| wrapped_media := PList media;
       wrapped_payload := json_params (PStr term) page perPage;
       wrapped_headers := header;
       wrapped_url := apiurl |} in
  (result = Ok (Media (PList media)) <-> hasNextPage = false) /\
  (result = Ok (Wrapped wrapper) <-> hasNextPage = true).
Proof.
  intros Hr Hl He Hd Hp Hi Hn Hm result wrapper.
  assert (H : result = Ok (if hasNextPage then Wrapped wrapper
                           else Media (PList media))).
  { subst result wrapper. unfold manga. rewrite Hr. cbn [bind]. rewrite Hl.
    unfold contains, dict_has. rewrite He. cbn [bind].
    rewrite Hd. cbn [bind]. rewrite Hp. cbn [bind]. rewrite Hi.
    cbn [bind]. rewrite Hn. cbn [bind truthy]. rewrite Hm. cbn [bind].
    destruct hasNextPage; reflexivity. }
  rewrite H.
  destruct hasNextPage; split; split; intros; try reflexivity; discriminate.
Qed.

End Search.

Import Json Demo.

Lemma manga_malformed_body_witness :
  let r := {| status_code := 502; text := gateway_page |} in
  graphql 502 gateway_page apiurl header (json_params (PStr "berserk") 1 3)
  = Ok r /\
  Json.loads (text r) = None /\
  manga (graphql 502 gateway_page) Json.loads "berserk" 1 3
  = Raise (serializationFailed gateway_page 502).
Proof.
  intros r.
  split; [reflexivity |].
  split; [vm_compute; reflexivity |].
  apply (manga_malformed_body (graphql 502 gateway_page) Json.loads
           "berserk" 1 3 r); [reflexivity | vm_compute; reflexivity].
Defined.

Lemma manga_errors_field_witness :
  let r := {| status_code := 429; text := manga_errors |} in
  let errors :=
    PList [PDict [(PStr "message", PStr "Too Many Requests.");
                  (PStr "status", PInt 429)]] in
  let d := [(PStr "errors", errors); (PStr "data", PNone)] in
  graphql 429 manga_errors apiurl header (json_params (PStr "berserk") 1 3)
  = Ok r /\
  Json.loads (text r) = Some (PDict d) /\
  dict_get d (PStr "errors") = Some errors /\
  manga (graphql 429 manga_errors) Json.loads "berserk" 1 3
  = Raise (serverError manga_errors 429).
Proof.
  intros r errors d.
  split; [reflexivity |].
  split; [vm_compute; reflexivity |].
  split; [reflexivity |].
  apply (manga_errors_field (graphql 429 manga_errors) Json.loads
           "berserk" 1 3 r d errors);
    [reflexivity | vm_compute; reflexivity | reflexivity].
Defined.

Lemma manga_page_result_witness :
  let media := [PDict [(PStr "id", PInt 30002); (PStr "idMal", PInt 2)]] in
  manga (graphql 200 manga_more) Json.loads "berserk" 1 3
  = Ok (Wrapped {| wrapped_media := PList media;
                   wrapped_payload := json_params (PStr "berserk") 1 3;
                   wrapped_headers := header;
                   wrapped_url := apiurl |}).
Proof.
  intros media.
  set (pageInfo := PDict [(PStr "currentPage", PInt 1);
                          (PStr "hasNextPage", PBool true)]).
  set (page_ := PDict [(PStr "pageInfo", pageInfo);
                       (PStr "media", PList media)]).
  set (data := PDict [(PStr "Page", page_)]).
  apply (manga_page_result (graphql 200 manga_more) Json.loads "berserk" 1 3
           {| status_code := 200; text := manga_more |}
           [(PStr "data", data)] data page_ pageInfo true media);
    reflexivity.
Defined.

End AnilistFacts.

(** ** More on dictionaries: stores that miss, stores that append *)

Module DictFacts.
Import Py PyFacts.

Lemma key_eqb_int (a b : Z) : key_eqb (PInt a) (PInt b) = (a =? b).
Proof.
  simpl. destruct (Z.eqb_spec a b) as [-> | Hne].
  - apply Qeq_bool_iff. reflexivity.
  - destruct (Qeq_bool (inject_Z a) (inject_Z b)) eqn:E; [| reflexivity].
    apply Qeq_bool_iff in E. unfold Qeq in E. simpl in E. lia.
Qed.

Lemma key_eqb_to_str (k : pyval) (t : string) :
  key_eqb k (PStr t) = true -> k = PStr t.
Proof.
  destruct k; simpl; try discriminate.
  intros H. apply String.eqb_eq in H. subst. reflexivity.
Qed.

Lemma dict_get_set_other_str (d : dict) (k v : pyval) (t : string) :
  key_eqb k (PStr t) = false ->
  dict_get (dict_set d k v) (PStr t) = dict_get d (PStr t).
Proof.
  intros Hk. induction d as [| [k' v'] d' IH]; simpl.
  - rewrite Hk. reflexivity.
  - destruct (key_eqb k' k) eqn:E; simpl.
    + destruct (key_eqb k' (PStr t)) eqn:E'; [| reflexivity].
      apply key_eqb_to_str in E'. subst k'.
      destruct k; simpl in E; try discriminate E.
      simpl in Hk. rewrite String.eqb_sym in Hk. congruence.
    + rewrite IH. reflexivity.
Qed.

Lemma dict_set_fresh (d : dict) (k v : pyval) :
  dict_get d k = None -> dict_set d k v = (d ++ [(k, v)])%list.
Proof.
  induction d as [| [k' v'] d' IH]; simpl; intros H.
  - reflexivity.
  - destruct (key_eqb k' k); [discriminate H |].
    rewrite (IH H). reflexivity.
Qed.

Lemma dict_get_app_fresh (d : dict) (k v : pyval) :
  key_eqb k k = true -> dict_get d k = None ->
  dict_get (d ++ [(k, v)])%list k = Some v.
Proof.
  intros Hk H. rewrite <- (dict_set_fresh d k v H).
  apply dict_get_set_same, Hk.
Qed.

Lemma dict_set_app_fresh (d : dict) (k v v' : pyval) :
  key_eqb k k = true -> dict_get d k = None ->
  dict_set (d ++ [(k, v)])%list k v' = (d ++ [(k, v')])%list.
Proof.
  intros Hk. induction d as [| [k0 v0] d' IH]; simpl; intros H.
  - rewrite Hk. reflexivity.
  - destruct (key_eqb k0 k); [discriminate H |].
    rewrite (IH H). reflexivity.
Qed.

Lemma dict_get_app_other (d : dict) (k k' v : pyval) :
  key_eqb k k' = false ->
  dict_get (d ++ [(k, v)])%list k' = dict_get d k'.
Proof.
  intros Hk. induction d as [| [k0 v0] d' IH]; simpl.
  - rewrite Hk. reflexivity.
  - destruct (key_eqb k0 k'); [reflexivity | exact IH].
Qed.

End DictFacts.

(** ** The paginated calls of [Mal] on whole payloads *)

Module MalPayload.
Import Py Http Mal PyFacts DictFacts Shape MalFacts.

Ltac unbind_as H x Hx :=
  apply bind_ok in H; destruct H as (x & Hx & H).

(** [set_paging] on a dictionary without the key 'paging' appends the
    cursor. *)
Lemma set_paging_fresh (rdict : dict) (jsd envelope : pyval)
  (limit offset : Z) (has_next : bool) :
  dict_get rdict (PStr "paging") = None ->
  getitem jsd "paging" = Ok envelope ->
  contains "next" envelope = Ok has_next ->
  set_paging rdict jsd limit offset
  = Ok (rdict ++ [(PStr "paging", cursor limit offset has_next)])%list.
Proof.
  intros Hf He Hn. unfold set_paging, setitem_in, getitem at 1 3.
  rewrite (dict_set_fresh _ _ _ Hf).
  rewrite (dict_get_app_fresh _ _ _ (key_eqb_str _) Hf). cbn [bind].
  cbn [setitem hashable dict_set bind].
  rewrite (dict_set_app_fresh _ _ _ _ (key_eqb_str _) Hf).
  rewrite He. cbn [bind]. rewrite Hn. cbn [bind].
  rewrite (dict_get_app_fresh _ _ _ (key_eqb_str _) Hf). cbn [bind].
  cbn [setitem hashable bind].
  rewrite (dict_set_app_fresh _ _ _ _ (key_eqb_str _) Hf).
  reflexivity.
Qed.

(** [set_paging] stores under 'paging' only. *)
Lemma set_paging_keeps (rdict : dict) (jsd : pyval) (limit offset : Z)
  (out : dict) (t : string) :
  t <> "paging" ->
  set_paging rdict jsd limit offset = Ok out ->
  dict_get out (PStr t) = dict_get rdict (PStr t).
Proof.
  intros Ht H.
  assert (Hk : key_eqb (PStr "paging") (PStr t) = false).
  { change (String.eqb "paging" t = false). apply String.eqb_neq.
    congruence. }
  unfold set_paging, setitem_in in H.
  unbind_as H d1 H1. unbind_as H1 inner Hi.
  destruct inner; try discriminate H1.
  unbind_as H1 d1' Hs. injection H1 as <-.
  unbind_as H envelope He. unbind_as H has_next Hn.
  unbind_as H inner Hi'.
  destruct inner; try discriminate H.
  unbind_as H d2' Hs'. injection H as <-.
  rewrite !dict_get_set_other_str by exact Hk. reflexivity.
Qed.

Section Client.

Variable http_get : request -> result response.
Variable loads : string -> option pyval.
Variable month : nat -> Z.
Variable apikey : string.

(** What the three calls do after a 200 answer with a decodable body. *)
Lemma run_200 (c : paged_call) (r : response) (jsd : pyval) :
  http_get (request_of month apikey c) = Ok r ->
  status_code r = 200 ->
  loads (text r) = Some jsd ->
  run http_get loads month apikey c
  = (data <- getitem jsd "data" ;;
     items <- iter data ;;
     rdict <- (if keyed_by_title c then title_loop items []
               else rank_loop items [(PStr "ranking", PDict [])]) ;;
     rdict <- set_paging rdict jsd (limit_of c) (offset_of c) ;;
     Ok (PDict rdict)).
Proof.
  intros Hr Hs Hl.
  destruct c; simpl in Hr |- *; unfold search, ranking, seasonal, json;
    rewrite Hr; cbn [bind]; rewrite Hs, Hl; reflexivity.
Qed.

(** X1. [search], [ranking] and [seasonal] answer any status other than
    200 by returning [None], whatever the body is. *)
Theorem run_not_200 (c : paged_call) (r : response) :
  http_get (request_of month apikey c) = Ok r ->
  status_code r <> 200 ->
  run http_get loads month apikey c = Ok PNone.
Proof.
  intros Hr Hs. apply Z.eqb_neq in Hs.
  destruct c; simpl in Hr |- *; unfold search, ranking, seasonal;
    rewrite Hr; cbn [bind]; rewrite Hs; reflexivity.
Qed.

(** X2. A 200 answer whose body the decoder rejects makes [search],
    [ranking] and [seasonal] raise the decoder's error; they do not return
    [None] for it. *)
Theorem run_undecodable (c : paged_call) (r : response) :
  http_get (request_of month apikey c) = Ok r ->
  status_code r = 200 ->
  loads (text r) = None ->
  run http_get loads month apikey c = Raise JSONDecodeError.
Proof.
  intros Hr Hs Hl.
  destruct c; simpl in Hr |- *; unfold search, ranking, seasonal, json;
    rewrite Hr; cbn [bind]; rewrite Hs, Hl; reflexivity.
Qed.

(** X3. On a 200 answer [get] returns the decoded body as it is, whatever
    its shape, and raises the decoder's error when there is none. *)
Theorem get_200 (id : string) (fields : option string) (r : response) :
  http_get (get_request apikey id fields) = Ok r ->
  status_code r = 200 ->
  (forall jsd, loads (text r) = Some jsd ->
     get http_get loads apikey id fields = Ok jsd) /\
  (loads (text r) = None ->
     get http_get loads apikey id fields = Raise JSONDecodeError).
Proof.
  intros Hr Hs. unfold get, json. rewrite Hr. cbn [bind]. rewrite Hs.
  split; [intros jsd Hl | intros Hl]; rewrite Hl; reflexivity.
Qed.

(** X4. A 200 answer that is an object without 'data' makes [search],
    [ranking] and [seasonal] raise [KeyError('data')]. *)
Theorem run_missing_data (c : paged_call) (r : response) (d : dict) :
  http_get (request_of month apikey c) = Ok r ->
  status_code r = 200 ->
  loads (text r) = Some (PDict d) ->
  dict_get d (PStr "data") = None ->
  run http_get loads month apikey c = Raise (KeyError (PStr "data")).
Proof.
  intros Hr Hs Hl Hd. rewrite (run_200 c r _ Hr Hs Hl).
  unfold getitem. rewrite Hd. reflexivity.
Qed.

(** X5. A 200 answer that is an object without 'paging' never gives a
    result: the envelope is read after the loop and its absence is an
    error. *)
Theorem run_missing_paging (c : paged_call) (r : response) (d : dict) :
  http_get (request_of month apikey c) = Ok r ->
  status_code r = 200 ->
  loads (text r) = Some (PDict d) ->
  dict_get d (PStr "paging") = None ->
  forall res, run http_get loads month apikey c <> Ok res.
Proof.
  intros Hr Hs Hl Hp res H. rewrite (run_200 c r _ Hr Hs Hl) in H.
  do 4 unbind H.
  destruct (set_paging_ok _ _ _ _ _ Ha2) as (envelope & has_next & He & _).
  unfold getitem in He. rewrite Hp in He. discriminate He.
Qed.

End Client.

End MalPayload.

(** ** The two loops of [Mal] on lists of records *)

Module MalLoops.
Import Py Http Mal PyFacts DictFacts Shape MalFacts MalPayload.

Lemma dict_get_titles_none (recs : list (string * pyval)) (t : string) :
  ~ In t (map fst recs) ->
  dict_get (map title_entry recs) (PStr t) = None.
Proof.
  induction recs as [| [t' node] recs IH]; intros Hin.
  - reflexivity.
  - cbn [map title_entry fst snd dict_get].
    replace (key_eqb (PStr t') (PStr t)) with false.
    + apply IH. intros H. apply Hin. right. exact H.
    + symmetry. change (String.eqb t' t = false). apply String.eqb_neq.
      intros ->. apply Hin. left. reflexivity.
Qed.

Lemma dict_get_ranks_none (recs : list (Z * pyval)) (z : Z) :
  ~ In z (map fst recs) ->
  dict_get (map rank_entry recs) (PInt z) = None.
Proof.
  induction recs as [| [z' node] recs IH]; intros Hin.
  - reflexivity.
  - cbn [map rank_entry fst snd dict_get]. rewrite key_eqb_int.
    replace (z' =? z) with false.
    + apply IH. intros H. apply Hin. right. exact H.
    + symmetry. apply Z.eqb_neq. intros ->. apply Hin. left. reflexivity.
Qed.

(** Records with pairwise distinct string titles go into the dictionary
    one after the other. *)
Lemma title_loop_distinct (items : list pyval)
  (recs : list (string * pyval)) :
  Forall2 titled items recs ->
  NoDup (map fst recs) ->
  forall acc,
    (forall t, In t (map fst recs) -> dict_get acc (PStr t) = None) ->
    title_loop items acc = Ok (acc ++ map title_entry recs)%list.
Proof.
  induction 1 as [| item [t node] items recs [Hn Ht] HF IH];
    intros Hnd acc Hacc.
  - cbn [title_loop map]. rewrite app_nil_r. reflexivity.
  - cbn [fst snd] in Hn, Ht. cbn [map fst] in Hnd, Hacc.
    inversion Hnd as [| ? ? Hnotin Hnd']; subst.
    cbn [title_loop]. rewrite Hn. cbn [bind]. rewrite Ht.
    cbn [bind setitem hashable].
    rewrite (dict_set_fresh acc (PStr t) node)
      by (apply Hacc; left; reflexivity).
    rewrite IH; [| exact Hnd' |].
    + rewrite <- app_assoc. reflexivity.
    + intros t' Hin. rewrite dict_get_app_other.
      * apply Hacc. right. exact Hin.
      * change (String.eqb t t' = false). apply String.eqb_neq.
        intros ->. contradiction.
Qed.

Lemma title_loop_app (a b : list pyval) :
  forall acc d,
    title_loop (a ++ b) acc = Ok d ->
    exists mid, title_loop a acc = Ok mid /\ title_loop b mid = Ok d.
Proof.
  induction a as [| item a IH]; intros acc d H.
  - exists acc. split; [reflexivity | exact H].
  - cbn [app title_loop] in H |- *.
    unbind_as H node Hn. unbind_as H node' Hn'. unbind_as H title Ht.
    unbind_as H rdict' Hs.
    rewrite Hn in Hn'. injection Hn' as <-.
    rewrite Hn. cbn [bind]. rewrite Ht. cbn [bind]. rewrite Hs. cbn [bind].
    apply IH. exact H.
Qed.

(** Later records with other titles leave the entry of [t] alone. *)
Lemma title_loop_keeps (t : string) (items : list pyval) :
  Forall (fun item => forall node title,
            getitem item "node" = Ok node ->
            getitem node "title" = Ok title ->
            title <> PStr t) items ->
  forall acc d,
    title_loop items acc = Ok d ->
    dict_get d (PStr t) = dict_get acc (PStr t).
Proof.
  induction 1 as [| item items Hitem HF IH]; intros acc d H.
  - injection H as <-. reflexivity.
  - cbn [title_loop] in H.
    unbind_as H node Hn. unbind_as H node' Hn'. unbind_as H title Ht.
    unbind_as H rdict' Hs.
    rewrite Hn in Hn'. injection Hn' as <-.
    unfold setitem in Hs. destruct (hashable title); [| discriminate Hs].
    injection Hs as <-.
    rewrite (IH _ _ H). apply dict_get_set_other_str.
    destruct (key_eqb title (PStr t)) eqn:E; [| reflexivity].
    apply key_eqb_to_str in E. exfalso. exact (Hitem node title Hn Ht E).
Qed.

(** A store into the table of a dictionary that has the table only. *)
Lemma setitem_in_single (s : string) (d : dict) (k v : pyval) :
  setitem_in [(PStr s, PDict d)] s k v
  = (d' <- setitem d k v ;; Ok [(PStr s, PDict d')]).
Proof.
  unfold setitem_in, getitem. cbn [dict_get]. rewrite key_eqb_str.
  cbn [bind]. destruct (setitem d k v) as [d' | e]; [| reflexivity].
  cbn [bind dict_set]. rewrite key_eqb_str. reflexivity.
Qed.

(** The loop of [ranking] stores into the table only. *)
Lemma rank_loop_shape (items : list pyval) :
  forall table out,
    rank_loop items [(PStr "ranking", PDict table)] = Ok out ->
    exists table', out = [(PStr "ranking", PDict table')].
Proof.
  induction items as [| item items IH]; intros table out H.
  - injection H as <-. exists table. reflexivity.
  - cbn [rank_loop] in H.
    unbind_as H node Hn. unbind_as H rkg Hr. unbind_as H rank Hk.
    unbind_as H rdict' Hs.
    rewrite setitem_in_single in Hs. unbind_as Hs d' Hd.
    injection Hs as <-. exact (IH _ _ H).
Qed.

(** Records with pairwise distinct integer ranks go into the table one
    after the other. *)
Lemma rank_loop_distinct (items : list pyval) (recs : list (Z * pyval)) :
  Forall2 ranked items recs ->
  NoDup (map fst recs) ->
  forall table,
    (forall z, In z (map fst recs) -> dict_get table (PInt z) = None) ->
    rank_loop items [(PStr "ranking", PDict table)]
    = Ok [(PStr "ranking", PDict (table ++ map rank_entry recs)%list)].
Proof.
  induction 1 as [| item [z node] items recs [Hn (rk & Hr & Hk)] HF IH];
    intros Hnd table Htab.
  - cbn [rank_loop map]. rewrite app_nil_r. reflexivity.
  - cbn [fst snd] in Hn, Hk. cbn [map fst] in Hnd, Htab.
    inversion Hnd as [| ? ? Hnotin Hnd']; subst.
    cbn [rank_loop]. rewrite Hn. cbn [bind]. rewrite Hr. cbn [bind].
    rewrite Hk. cbn [bind]. rewrite setitem_in_single.
    cbn [setitem hashable bind].
    rewrite (dict_set_fresh table (PInt z) node)
      by (apply Htab; left; reflexivity).
    rewrite IH; [| exact Hnd' |].
    + rewrite <- app_assoc. reflexivity.
    + intros z' Hin. rewrite dict_get_app_other.
      * apply Htab. right. exact Hin.
      * rewrite key_eqb_int. apply Z.eqb_neq. intros ->. contradiction.
Qed.

End MalLoops.

(** ** What [search], [seasonal] and [ranking] return *)

Module MalResults.
Import Py Http Mal PyFacts DictFacts Shape MalFacts MalPayload MalLoops.

Section Client.

Variable http_get : request -> result response.
Variable loads : string -> option pyval.
Variable month : nat -> Z.
Variable apikey : string.

Lemma table_only_no_paging (table : dict) :
  dict_get [(PStr "ranking", PDict table)] (PStr "paging") = None.
Proof. reflexivity. Qed.

(** X6. When the records of a 200 payload have pairwise distinct string
    titles, none of them "paging", [search] and [seasonal] return the
    records under their titles in the order of the payload, then the
    cursor under 'paging', and nothing else. *)
Theorem titles_in_order (c : paged_call) (r : response) (jsd : pyval)
  (items : list pyval) (recs : list (string * pyval))
  (envelope : pyval) (has_next : bool) :
  keyed_by_title c = true ->
  http_get (request_of month apikey c) = Ok r ->
  status_code r = 200 ->
  loads (text r) = Some jsd ->
  getitem jsd "data" = Ok (PList items) ->
  Forall2 titled items recs ->
  NoDup (map fst recs) ->
  ~ In "paging" (map fst recs) ->
  getitem jsd "paging" = Ok envelope ->
  contains "next" envelope = Ok has_next ->
  run http_get loads month apikey c
  = Ok (PDict (map title_entry recs
               ++ [(PStr "paging",
                    cursor (limit_of c) (offset_of c) has_next)])).
Proof.
  intros Hc Hr Hs Hl Hd Hrecs Hnd Hnp He Hn.
  rewrite (run_200 _ _ _ _ c r jsd Hr Hs Hl), Hc, Hd. cbn [bind iter].
  rewrite (title_loop_distinct items recs Hrecs Hnd [])
    by (intros; reflexivity).
  cbn [app bind].
  rewrite (set_paging_fresh _ jsd envelope _ _ has_next
             (dict_get_titles_none recs "paging" Hnp) He Hn).
  reflexivity.
Qed.

(** X7. When the records of a 200 payload have pairwise distinct integer
    ranks, [ranking] returns the table of the records by rank in the order
    of the payload under 'ranking', then the cursor under 'paging', and
    nothing else. *)
Theorem ranks_in_order (rank_type : string) (limit offset : Z)
  (fields : option string) (nsfw : pyval) (r : response) (jsd : pyval)
  (items : list pyval) (recs : list (Z * pyval))
  (envelope : pyval) (has_next : bool) :
  http_get (ranking_request apikey rank_type limit offset fields nsfw)
  = Ok r ->
  status_code r = 200 ->
  loads (text r) = Some jsd ->
  getitem jsd "data" = Ok (PList items) ->
  Forall2 ranked items recs ->
  NoDup (map fst recs) ->
  getitem jsd "paging" = Ok envelope ->
  contains "next" envelope = Ok has_next ->
  ranking http_get loads apikey rank_type limit offset fields nsfw
  = Ok (PDict [(PStr "ranking", PDict (map rank_entry recs));
               (PStr "paging", cursor limit offset has_next)]).
Proof.
  intros Hr Hs Hl Hd Hrecs Hnd He Hn.
  pose proof (run_200 http_get loads month apikey
                (Ranking rank_type limit offset fields nsfw) r jsd
                Hr Hs Hl) as H.
  cbn [run keyed_by_title limit_of offset_of] in H. rewrite H, Hd.
  cbn [bind iter].
  rewrite (rank_loop_distinct items recs Hrecs Hnd [])
    by (intros; reflexivity).
  cbn [app bind].
  rewrite (set_paging_fresh _ jsd envelope _ _ has_next
             (table_only_no_paging _) He Hn).
  reflexivity.
Qed.

(** X8. Whatever the payload, a result of [ranking] has the two keys
    'ranking' and 'paging' and no other: the records are in the table
    under 'ranking', where no rank can take the place of the cursor. *)
Theorem ranking_two_keys (rank_type : string) (limit offset : Z)
  (fields : option string) (nsfw rdict : pyval) :
  ranking http_get loads apikey rank_type limit offset fields nsfw
  = Ok rdict ->
  rdict <> PNone ->
  exists table has_next,
    rdict = PDict [(PStr "ranking", PDict table);
                   (PStr "paging", cursor limit offset has_next)].
Proof.
  intros H Hnone.
  set (c := Ranking rank_type limit offset fields nsfw).
  change (run http_get loads month apikey c = Ok rdict) in H.
  destruct (run_ok _ _ _ _ c rdict H Hnone)
    as (r & jsd & _ & _ & Hr & Hs & Hl & _ & _).
  rewrite (run_200 _ _ _ _ c r jsd Hr Hs Hl) in H.
  cbn [keyed_by_title c limit_of offset_of] in H.
  unbind_as H data Hd. unbind_as H items Hi. unbind_as H filled Hf.
  unbind_as H out Hp. injection H as <-.
  destruct (rank_loop_shape _ _ _ Hf) as (table & ->).
  destruct (set_paging_ok _ _ _ _ _ Hp) as (envelope & has_next & He & Hn & _).
  rewrite (set_paging_fresh _ jsd envelope _ _ has_next
             (table_only_no_paging _) He Hn) in Hp.
  injection Hp as <-.
  exists table, has_next. reflexivity.
Qed.

(** X9. In a result of [search] or [seasonal], a title other than "paging"
    holds the node of the last record of the payload that has this title:
    of two records with one title the later one stays. *)
Theorem last_title_wins (c : paged_call) (r : response) (jsd : pyval)
  (before after : list pyval) (item node : pyval) (t : string)
  (rdict : pyval) :
  keyed_by_title c = true ->
  http_get (request_of month apikey c) = Ok r ->
  status_code r = 200 ->
  loads (text r) = Some jsd ->
  getitem jsd "data" = Ok (PList (before ++ item :: after)) ->
  titled item (t, node) ->
  t <> "paging" ->
  Forall (fun item' => forall node' title,
            getitem item' "node" = Ok node' ->
            getitem node' "title" = Ok title ->
            title <> PStr t) after ->
  run http_get loads month apikey c = Ok rdict ->
  getitem rdict t = Ok node.
Proof.
  intros Hc Hr Hs Hl Hd [Hn Ht] Hnp Hafter H.
  cbn [fst snd] in Hn, Ht.
  rewrite (run_200 _ _ _ _ c r jsd Hr Hs Hl), Hc, Hd in H.
  cbn [bind iter] in H.
  unbind_as H filled Hf. unbind_as H out Hp. injection H as <-.
  destruct (title_loop_app _ _ _ _ Hf) as (mid & _ & Hrest).
  cbn [title_loop] in Hrest. rewrite Hn in Hrest. cbn [bind] in Hrest.
  rewrite Ht in Hrest. cbn [bind setitem hashable] in Hrest.
  unfold getitem.
  rewrite (set_paging_keeps _ _ _ _ _ t Hnp Hp).
  rewrite (title_loop_keeps t after Hafter _ _ Hrest).
  rewrite dict_get_set_same by apply key_eqb_str.
  reflexivity.
Qed.

End Client.

(** X10. With the season unset, [seasonal] reads the month up to three
    times.  When the readings stay within 1..12 and do not go back, the
    season it derives is the quarter of one of the readings: a change of
    month during the call gives the season of the old or of the new
    month. *)
Theorem my_season_of_a_reading (month : nat -> Z) :
  1 <= month 0%nat ->
  month 0%nat <= month 1%nat ->
  month 1%nat <= month 2%nat ->
  month 2%nat <= 12 ->
  exists k, (k < 3)%nat /\ my_season month None = quarter (month k).
Proof.
  intros H0 H1 H2 H3.
  assert (Hq : forall m, 1 <= m <= 12 ->
             quarter m = if m <=? 3 then "winter"
                         else if m <=? 6 then "spring"
                         else if m <=? 9 then "summer" else "fall").
  { intros m Hm. unfold quarter.
    assert (m = 1 \/ m = 2 \/ m = 3 \/ m = 4 \/ m = 5 \/ m = 6 \/ m = 7
            \/ m = 8 \/ m = 9 \/ m = 10 \/ m = 11 \/ m = 12) as Hcase by lia.
    repeat (destruct Hcase as [-> | Hcase]; [reflexivity |]).
    subst m. reflexivity. }
  unfold my_season.
  destruct (month 0%nat <=? 3) eqn:E0.
  - exists 0%nat. split; [lia |]. rewrite Hq by lia. rewrite E0. reflexivity.
  - apply Z.leb_gt in E0. destruct (month 1%nat <=? 6) eqn:E1.
    + exists 1%nat. split; [lia |]. rewrite Hq by lia. rewrite E1.
      replace (month 1%nat <=? 3) with false
        by (symmetry; apply Z.leb_gt; lia).
      reflexivity.
    + apply Z.leb_gt in E1. exists 2%nat. split; [lia |].
      rewrite Hq by lia.
      replace (month 2%nat <=? 3) with false
        by (symmetry; apply Z.leb_gt; lia).
      replace (month 2%nat <=? 6) with false
        by (symmetry; apply Z.leb_gt; lia).
      reflexivity.
Qed.

End MalResults.

(** ** More on the triage of [manga] *)

Module AnilistTriage.
Import Py Http Anilist PyFacts.

Section Search.

Variable loads : string -> option pyval.

(** X11. [manga] does not look at the status code: two answers with the
    same body give the same result, whatever their statuses are. *)
Theorem manga_status_ignored
  (http_post http_post' :
     string -> list (string * string) -> pyval -> result response)
  (term : string) (page perPage : Z) (r r' : response)
  (res : manga_result) :
  http_post apiurl header (json_params (PStr term) page perPage) = Ok r ->
  http_post' apiurl header (json_params (PStr term) page perPage) = Ok r' ->
  text r = text r' ->
  manga http_post loads term page perPage = Ok res ->
  manga http_post' loads term page perPage = Ok res.
Proof.
  intros Hr Hr' Ht H. unfold manga in *.
  rewrite Hr in H. rewrite Hr'. cbn [bind] in *. rewrite <- Ht.
  destruct (loads (text r)) as [jsd |]; [| discriminate H].
  destruct (contains "errors" jsd) as [[|] | e]; cbn [bind] in *;
    try discriminate H.
  exact H.
Qed.

Variable http_post :
  string -> list (string * string) -> pyval -> result response.

(** X12. A body that decodes to a number, a boolean or [null] makes
    [manga] raise [TypeError], from the test ['errors' in jsd]: neither
    [serializationFailed] nor [serverError]. *)
Theorem manga_scalar_body (term : string) (page perPage : Z)
  (r : response) (jsd : pyval) :
  http_post apiurl header (json_params (PStr term) page perPage) = Ok r ->
  loads (text r) = Some jsd ->
  match jsd with
  | PNone | PBool _ | PInt _ | PFloat _ => True
  | _ => False
  end ->
  manga http_post loads term page perPage = Raise TypeError.
Proof.
  intros Hr Hl Hj. unfold manga. rewrite Hr. cbn [bind]. rewrite Hl.
  destruct jsd; try contradiction; reflexivity.
Qed.

(** X13. The test for errors is ['errors' in jsd] on whatever the body
    decodes to: a JSON string with "errors" inside, and a JSON array with
    the element "errors", end in [serverError] like an object with the
    key. *)
Theorem manga_errors_in_text_or_array (term : string) (page perPage : Z)
  (r : response) :
  http_post apiurl header (json_params (PStr term) page perPage) = Ok r ->
  (forall t, loads (text r) = Some (PStr t) ->
     is_substring "errors" t = true ->
     manga http_post loads term page perPage
     = Raise (serverError (text r) (status_code r))) /\
  (forall l, loads (text r) = Some (PList l) ->
     In (PStr "errors") l ->
     manga http_post loads term page perPage
     = Raise (serverError (text r) (status_code r))).
Proof.
  intros Hr. unfold manga. rewrite Hr. cbn [bind].
  split.
  - intros t Hl Hsub. rewrite Hl. cbn [contains bind]. rewrite Hsub.
    reflexivity.
  - intros l Hl Hin. rewrite Hl. cbn [contains bind].
    replace (existsb (eq_str "errors") l) with true; [reflexivity |].
    symmetry. apply existsb_exists. exists (PStr "errors").
    split; [exact Hin | reflexivity].
Qed.

(** X14. On an object without 'errors', [manga] decides by the truth value
    of [hasNextPage], of any type, and hands over
    [data.Page.media] as it is, of any type: in the wrapper when the flag
    is true, alone when it is false. *)
Theorem manga_flag_by_truth (term : string) (page perPage : Z)
  (r : response) (d : dict) (data page_ pageInfo hasNextPage media : pyval) :
  http_post apiurl header (json_params (PStr term) page perPage) = Ok r ->
  loads (text r) = Some (PDict d) ->
  dict_get d (PStr "errors") = None ->
  getitem (PDict d) "data" = Ok data ->
  getitem data "Page" = Ok page_ ->
  getitem page_ "pageInfo" = Ok pageInfo ->
  getitem pageInfo "hasNextPage" = Ok hasNextPage ->
  getitem page_ "media" = Ok media ->
  manga http_post loads term page perPage
  = Ok (if truthy hasNextPage
        then Wrapped {| wrapped_media := media;
                        wrapped_payload := json_params (PStr term) page perPage;
                        wrapped_headers := header;
                        wrapped_url := apiurl |}
        else Media media).
Proof.
  intros Hr Hl He Hd Hp Hi Hn Hm.
  unfold manga. rewrite Hr. cbn [bind]. rewrite Hl.
  unfold contains, dict_has. rewrite He. cbn [bind].
  rewrite Hd. cbn [bind]. rewrite Hp. cbn [bind]. rewrite Hi.
  cbn [bind]. rewrite Hn. cbn [bind].
  destruct (truthy hasNextPage); rewrite Hm; reflexivity.
Qed.

(** X15. On an object with neither 'errors' nor 'data', [manga] raises
    [KeyError('data')]; when 'data' is [null] it raises [TypeError]. *)
Theorem manga_without_data (term : string) (page perPage : Z)
  (r : response) (d : dict) :
  http_post apiurl header (json_params (PStr term) page perPage) = Ok r ->
  loads (text r) = Some (PDict d) ->
  dict_get d (PStr "errors") = None ->
  (dict_get d (PStr "data") = None ->
     manga http_post loads term page perPage
     = Raise (KeyError (PStr "data"))) /\
  (dict_get d (PStr "data") = Some PNone ->
     manga http_post loads term page perPage = Raise TypeError).
Proof.
  intros Hr Hl He. unfold manga. rewrite Hr. cbn [bind]. rewrite Hl.
  unfold contains, dict_has. rewrite He. cbn [bind].
  split; intros Hd.
  - replace (getitem (PDict d) "data") with
      (@Raise pyval (KeyError (PStr "data")))
      by (unfold getitem; rewrite Hd; reflexivity).
    reflexivity.
  - replace (getitem (PDict d) "data") with (Ok PNone)
      by (unfold getitem; rewrite Hd; reflexivity).
    reflexivity.
Qed.

End Search.

End AnilistTriage.

(** ** The properties above on the canned servers *)

Module Runs.
Import Py Http Json Demo Samples Shape.
Import Mal Anilist MalPayload MalResults AnilistTriage.

Lemma run_not_200_witness :
  run (server 503 gateway_page) Json.loads (steady 1) "key"
    (Seasonal 2024 None "anime_score" 10 0 None PNone)
  = Ok PNone.
Proof.
  apply (run_not_200 (server 503 gateway_page) Json.loads (steady 1) "key"
           (Seasonal 2024 None "anime_score" 10 0 None PNone)
           {| status_code := 503; text := gateway_page |});
    [reflexivity | simpl; lia].
Defined.

Lemma run_undecodable_witness :
  run (server 200 gateway_page) Json.loads (steady 1) "key"
    (Search "bleach" 10 0 None PNone)
  = Raise JSONDecodeError.
Proof.
  apply (run_undecodable (server 200 gateway_page) Json.loads (steady 1)
           "key" (Search "bleach" 10 0 None PNone)
           {| status_code := 200; text := gateway_page |});
    [reflexivity | reflexivity | vm_compute; reflexivity].
Defined.

Lemma get_200_witness :
  Mal.get (server 200 one_record) Json.loads "key" "1" None
  = Ok (PDict [(PStr "id", PInt 1); (PStr "title", PStr "Cowboy Bebop")]).
Proof.
  apply (get_200 (server 200 one_record) Json.loads "key" "1" None
           {| status_code := 200; text := one_record |}
           eq_refl eq_refl).
  vm_compute. reflexivity.
Defined.

Lemma run_missing_data_witness :
  run (server 200 not_found) Json.loads (steady 1) "key"
    (Ranking "all" 10 0 None PNone)
  = Raise (KeyError (PStr "data")).
Proof.
  apply (run_missing_data (server 200 not_found) Json.loads (steady 1)
           "key" (Ranking "all" 10 0 None PNone)
           {| status_code := 200; text := not_found |}
           [(PStr "message", PStr ""); (PStr "error", PStr "not_found")]);
    [reflexivity | reflexivity | vm_compute; reflexivity | reflexivity].
Defined.

Lemma run_missing_paging_witness :
  ~ (exists res,
       run (server 200 no_envelope) Json.loads (steady 1) "key"
         (Search "bleach" 10 0 None PNone)
       = Ok res).
Proof.
  intros [res H]. revert H.
  apply (run_missing_paging (server 200 no_envelope) Json.loads (steady 1)
           "key" (Search "bleach" 10 0 None PNone)
           {| status_code := 200; text := no_envelope |}
           [(PStr "data", PList [])]);
    [reflexivity | reflexivity | vm_compute; reflexivity | reflexivity].
Defined.

Lemma titles_in_order_witness :
  let bleach := PDict [(PStr "id", PInt 269); (PStr "title", PStr "Bleach")] in
  let naruto := PDict [(PStr "id", PInt 20); (PStr "title", PStr "Naruto")] in
  run (server 200 two_titles) Json.loads (steady 1) "key"
    (Search "bleach" 10 20 None PNone)
  = Ok (PDict [(PStr "Bleach", bleach); (PStr "Naruto", naruto);
               (PStr "paging", cursor 10 20 true)]).
Proof.
  intros bleach naruto.
  set (envelope :=
         PDict [(PStr "next",
                 PStr "https://api.myanimelist.net/v2/anime?offset=30")]).
  set (items := [PDict [(PStr "node", bleach)];
                 PDict [(PStr "node", naruto)]]).
  apply (titles_in_order (server 200 two_titles) Json.loads (steady 1)
           "key" (Search "bleach" 10 20 None PNone)
           {| status_code := 200; text := two_titles |}
           (PDict [(PStr "data", PList items); (PStr "paging", envelope)])
           items [("Bleach", bleach); ("Naruto", naruto)] envelope true).
  - reflexivity.
  - reflexivity.
  - reflexivity.
  - vm_compute. reflexivity.
  - reflexivity.
  - constructor; [split; reflexivity |].
    constructor; [split; reflexivity | constructor].
  - constructor; [intros [H | []]; discriminate H |].
    constructor; [intros [] | constructor].
  - intros [H | [H | []]]; discriminate H.
  - reflexivity.
  - reflexivity.
Defined.

Lemma ranks_in_order_witness :
  let fullmetal :=
    PDict [(PStr "id", PInt 5114); (PStr "title", PStr "Fullmetal")] in
  let steins :=
    PDict [(PStr "id", PInt 9253); (PStr "title", PStr "Steins")] in
  ranking (server 200 two_ranks) Json.loads "key" "all" 2 0 None PNone
  = Ok (PDict [(PStr "ranking",
                PDict [(PInt 2, fullmetal); (PInt 1, steins)]);
               (PStr "paging", cursor 2 0 true)]).
Proof.
  intros fullmetal steins.
  set (envelope :=
         PDict [(PStr "next",
                 PStr "https://api.myanimelist.net/v2/anime/ranking?offset=2")]).
  set (items := [PDict [(PStr "node", fullmetal);
                        (PStr "ranking", PDict [(PStr "rank", PInt 2)])];
                 PDict [(PStr "node", steins);
                        (PStr "ranking", PDict [(PStr "rank", PInt 1)])]]).
  apply (ranks_in_order (server 200 two_ranks) Json.loads (steady 1) "key"
           "all" 2 0 None PNone
           {| status_code := 200; text := two_ranks |}
           (PDict [(PStr "data", PList items); (PStr "paging", envelope)])
           items [(2, fullmetal); (1, steins)] envelope true).
  - reflexivity.
  - reflexivity.
  - vm_compute. reflexivity.
  - reflexivity.
  - constructor; [split; [reflexivity | eexists; split; reflexivity] |].
    constructor; [split; [reflexivity | eexists; split; reflexivity] |].
    constructor.
  - constructor; [intros [H | []]; discriminate H |].
    constructor; [intros [] | constructor].
  - reflexivity.
  - reflexivity.
Defined.

Lemma ranking_two_keys_witness :
  exists table has_next,
    PDict [(PStr "ranking",
            PDict [(PInt 2,
                    PDict [(PStr "id", PInt 5114);
                           (PStr "title", PStr "Fullmetal")]);
                   (PInt 1,
                    PDict [(PStr "id", PInt 9253);
                           (PStr "title", PStr "Steins")])]);
           (PStr "paging",
            PDict [(PStr "previous", PNone); (PStr "next", PInt 2)])]
    = PDict [(PStr "ranking", PDict table);
             (PStr "paging", cursor 2 0 has_next)].
Proof.
  apply (ranking_two_keys (server 200 two_ranks) Json.loads (steady 1)
           "key" "all" 2 0 None PNone);
    [vm_compute; reflexivity | discriminate].
Defined.

Lemma last_title_wins_witness :
  exists rdict,
    run (server 200 same_title_twice) Json.loads (steady 1) "key"
      (Search "bleach" 10 0 None PNone) = Ok rdict /\
    getitem rdict "Bleach"
    = Ok (PDict [(PStr "id", PInt 2); (PStr "title", PStr "Bleach")]).
Proof.
  set (first := PDict [(PStr "id", PInt 1); (PStr "title", PStr "Bleach")]).
  set (second := PDict [(PStr "id", PInt 2); (PStr "title", PStr "Bleach")]).
  eexists. split; [vm_compute; reflexivity |].
  apply (last_title_wins (server 200 same_title_twice) Json.loads
           (steady 1) "key" (Search "bleach" 10 0 None PNone)
           {| status_code := 200; text := same_title_twice |}
           (PDict [(PStr "data",
                    PList [PDict [(PStr "node", first)];
                           PDict [(PStr "node", second)]]);
                   (PStr "paging", PDict [])])
           [PDict [(PStr "node", first)]] []
           (PDict [(PStr "node", second)]) second "Bleach").
  - reflexivity.
  - reflexivity.
  - reflexivity.
  - vm_compute. reflexivity.
  - reflexivity.
  - split; reflexivity.
  - discriminate.
  - constructor.
  - vm_compute. reflexivity.
Defined.

Lemma my_season_of_a_reading_witness :
  exists k, (k < 3)%nat /\ my_season june_to_july None = quarter (june_to_july k).
Proof.
  apply (my_season_of_a_reading june_to_july); simpl; lia.
Defined.

(** Where the readings go back, from December to January, the derived
    season is the quarter of none of them. *)
Example my_season_new_year :
  my_season new_year None = "summer" /\
  quarter 12 = "fall" /\ quarter 1 = "winter".
Proof. repeat split. Qed.

Lemma manga_status_ignored_witness :
  manga (graphql 500 manga_last) Json.loads "berserk" 1 3
  = Ok (Media (PList [PDict [(PStr "id", PInt 30002);
                             (PStr "idMal", PInt 2)]])).
Proof.
  apply (manga_status_ignored Json.loads
           (graphql 200 manga_last) (graphql 500 manga_last) "berserk" 1 3
           {| status_code := 200; text := manga_last |}
           {| status_code := 500; text := manga_last |});
    [reflexivity | reflexivity | reflexivity | vm_compute; reflexivity].
Defined.

Lemma manga_scalar_body_witness :
  manga (graphql 429 bare_number) Json.loads "berserk" 1 3
  = Raise TypeError.
Proof.
  apply (manga_scalar_body Json.loads (graphql 429 bare_number)
           "berserk" 1 3 {| status_code := 429; text := bare_number |}
           (PInt 429));
    [reflexivity | vm_compute; reflexivity | exact I].
Defined.

Lemma manga_errors_in_text_or_array_witness :
  manga (graphql 500 bare_text) Json.loads "berserk" 1 3
  = Raise (serverError bare_text 500).
Proof.
  apply (proj1 (manga_errors_in_text_or_array Json.loads
                  (graphql 500 bare_text) "berserk" 1 3
                  {| status_code := 500; text := bare_text |} eq_refl)
           "Internal errors occurred");
    vm_compute; reflexivity.
Defined.

Lemma manga_flag_by_truth_witness :
  manga (graphql 200 flag_as_number) Json.loads "berserk" 1 3
  = Ok (Wrapped {| wrapped_media := PDict [(PStr "id", PInt 30002)];
                   wrapped_payload := json_params (PStr "berserk") 1 3;
                   wrapped_headers := Anilist.header;
                   wrapped_url := Anilist.apiurl |}).
Proof.
  set (media := PDict [(PStr "id", PInt 30002)]).
  set (pageInfo := PDict [(PStr "hasNextPage", PInt 1)]).
  set (page_ := PDict [(PStr "pageInfo", pageInfo); (PStr "media", media)]).
  set (data := PDict [(PStr "Page", page_)]).
  apply (manga_flag_by_truth Json.loads (graphql 200 flag_as_number)
           "berserk" 1 3 {| status_code := 200; text := flag_as_number |}
           [(PStr "data", data)] data page_ pageInfo (PInt 1) media);
    reflexivity.
Defined.

Lemma manga_without_data_witness :
  manga (graphql 200 no_data) Json.loads "berserk" 1 3
  = Raise (KeyError (PStr "data")) /\
  manga (graphql 200 null_data) Json.loads "berserk" 1 3
  = Raise TypeError.
Proof.
  split.
  - apply (proj1 (manga_without_data Json.loads (graphql 200 no_data)
                    "berserk" 1 3 {| status_code := 200; text := no_data |}
                    [(PStr "message", PStr "ok")] eq_refl eq_refl eq_refl)).
    reflexivity.
  - apply (proj2 (manga_without_data Json.loads (graphql 200 null_data)
                    "berserk" 1 3
                    {| status_code := 200; text := null_data |}
                    [(PStr "data", PNone)] eq_refl eq_refl eq_refl)).
    reflexivity.
Defined.

End Runs.

(** ** Following the cursor from one call to the next *)

Module MalCursor.
Import Py Http Json Demo Mal PyFacts Shape MalFacts.

Section Client.

Variable http_get : request -> result response.
Variable loads : string -> option pyval.
Variable month : nat -> Z.
Variable apikey : string.

(** X16. The cursor leads there and back: when a call gives ['next'] = n
    with n > 0, the same call from offset n, if it gives a result, gives
    it with ['previous'] equal to the offset of the first call. *)
Theorem next_then_previous (c : paged_call) (rdict cur rdict' : pyval)
  (n : Z) :
  run http_get loads month apikey c = Ok rdict ->
  getitem rdict "paging" = Ok cur ->
  getitem cur "next" = Ok (PInt n) ->
  0 < n ->
  run http_get loads month apikey (with_offset c n) = Ok rdict' ->
  rdict' <> PNone ->
  exists cur',
    getitem rdict' "paging" = Ok cur' /\
    getitem cur' "previous" = Ok (PInt (offset_of c)).
Proof.
  intros H Hcur Hnext Hpos H' Hnone'.
  assert (Hnone : rdict <> PNone) by (intros ->; discriminate Hcur).
  destruct (run_ok _ _ _ _ c rdict H Hnone)
    as (r & jsd & d0 & out & _ & _ & _ & Hp & ->).
  destruct (set_paging_ok _ _ _ _ _ Hp) as (envelope & has_next & _ & _ & Hc).
  rewrite Hc in Hcur. injection Hcur as <-.
  assert (Hn : n = offset_of c + limit_of c).
  { destruct has_next; simpl in Hnext; [| discriminate Hnext].
    injection Hnext as <-. reflexivity. }
  destruct (run_ok _ _ _ _ (with_offset c n) rdict' H' Hnone')
    as (r' & jsd' & d0' & out' & _ & _ & _ & Hp' & ->).
  destruct (set_paging_ok _ _ _ _ _ Hp')
    as (envelope' & has_next' & _ & _ & Hc').
  eexists. split; [exact Hc' |].
  replace (offset_of (with_offset c n)) with n by (destruct c; reflexivity).
  replace (limit_of (with_offset c n)) with (limit_of c)
    by (destruct c; reflexivity).
  apply Z.ltb_lt in Hpos. unfold getitem. cbn [dict_get].
  rewrite key_eqb_str, Hpos. do 2 f_equal. lia.
Qed.

End Client.

Lemma next_then_previous_witness :
  exists cur',
    getitem
      (PDict [(PStr "Bleach",
               PDict [(PStr "id", PInt 269); (PStr "title", PStr "Bleach")]);
              (PStr "Naruto",
               PDict [(PStr "id", PInt 20); (PStr "title", PStr "Naruto")]);
              (PStr "paging",
               PDict [(PStr "previous", PInt 20); (PStr "next", PInt 40)])])
      "paging" = Ok cur' /\
    getitem cur' "previous"
    = Ok (PInt (offset_of (Search "bleach" 10 20 None PNone))).
Proof.
  eapply (next_then_previous (server 200 two_titles) Json.loads (steady 1)
            "key" (Search "bleach" 10 20 None PNone) _ _ _ 30).
  - vm_compute. reflexivity.
  - reflexivity.
  - reflexivity.
  - lia.
  - vm_compute. reflexivity.
  - discriminate.
Defined.

End MalCursor.
